(** * PubMed search server: query construction, record extraction and
      the result envelope

    A shallow embedding of [pubmed_search_mcp_server.py].  Python strings
    are sequences of Unicode code points, dictionaries built by the program
    are finite maps with string keys, the ElementTree document is a rose
    tree, and the two remote calls are threaded through a small
    state-and-exception monad whose state is the trace of observable
    events. *)

From Stdlib Require Import ZArith NArith List Ascii String DecimalString Floats.
From stdpp Require Import gmap strings list fin_maps.

Local Open Scope string_scope.
Local Open Scope list_scope.

(** ** Python strings *)

(** A [str] is a sequence of code points. *)
Abbreviation pystr := (list N) (only parsing).

(** Literals of the source, written as ASCII strings. *)
Definition U (s : string) : pystr :=
  map N_of_ascii (list_ascii_of_string s).

(** [sep.join(parts)] *)
Fixpoint join (sep : pystr) (parts : list pystr) : pystr :=
  match parts with
  | [] => []
  | [x] => x
  | x :: rest => x ++ sep ++ join sep rest
  end.

(** [ch.isspace()]: the code points CPython classifies as whitespace. *)
Definition isspace (c : N) : bool :=
  ((9 <=? c) && (c <=? 13) || (28 <=? c) && (c <=? 32)
   || (c =? 133) || (c =? 160) || (c =? 5760)
   || (8192 <=? c) && (c <=? 8202)
   || (c =? 8232) || (c =? 8233) || (c =? 8239) || (c =? 8287)
   || (c =? 12288))%N.

Fixpoint lstrip (s : pystr) : pystr :=
  match s with
  | [] => []
  | c :: s' => if isspace c then lstrip s' else s
  end.

Definition rstrip (s : pystr) : pystr := reverse (lstrip (reverse s)).

(** [s.strip()] *)
Definition strip (s : pystr) : pystr := rstrip (lstrip s).

(** [str(n)] for a non-negative integer. *)
Definition str_of_N (n : N) : pystr :=
  U (NilZero.string_of_uint (N.to_uint n)).

(** ** Python values built by the program *)

#[warnings="-register-all"]
Inductive pyval :=
| PyBool (b : bool)
| PyInt (z : Z)
| PyStr (s : pystr)
| PyList (l : list pyval)
| PyDict (d : gmap string pyval).

(** [v.get(key)] and [set(v.keys())] for a dictionary [v]. *)
Definition py_item (v : pyval) (key : string) : option pyval :=
  match v with
  | PyDict d => d !! key
  | _ => None
  end.

Definition py_keys (v : pyval) : gset string :=
  match v with
  | PyDict d => dom d
  | _ => ∅
  end.

(** ** Exceptions *)

(** The subclasses of [Exception] that the program can meet.  [ParseError]
    is ElementTree's; its message is assembled by the library from the
    expat error text and the position.  [Raised] stands for whatever the
    HTTP client raises (connection errors, JSON decoding errors). *)
Inductive PyExc :=
| ParseError (text : pystr) (line column : N)
| AttributeError (msg : pystr)
| TypeError (msg : pystr)
| Raised (cls : string) (msg : pystr).

(** [str(e)] *)
Definition str_exc (e : PyExc) : pystr :=
  match e with
  | ParseError text line column =>
      text ++ U ": line " ++ str_of_N line ++ U ", column " ++ str_of_N column
  | AttributeError msg => msg
  | TypeError msg => msg
  | Raised _ msg => msg
  end.

Abbreviation result A := (PyExc + A)%type (only parsing).

(** ** Decoded JSON *)

(** What [Response.json()] returns.  A [JDict] lists its items in insertion
    order; its keys are pairwise distinct. *)
#[warnings="-register-all"]
Inductive json :=
| JNone
| JBool (b : bool)
| JInt (z : Z)
| JFloat (f : float)
| JStr (s : pystr)
| JList (l : list json)
| JDict (items : list (pystr * json)).

(** [type(v).__name__] *)
Definition type_name (v : json) : pystr :=
  match v with
  | JNone => U "NoneType"
  | JBool _ => U "bool"
  | JInt _ => U "int"
  | JFloat _ => U "float"
  | JStr _ => U "str"
  | JList _ => U "list"
  | JDict _ => U "dict"
  end.

Fixpoint assoc (key : pystr) (items : list (pystr * json)) : option json :=
  match items with
  | [] => None
  | (k, v) :: rest => if decide (k = key) then Some v else assoc key rest
  end.

(** [v.get(key, default)]: only a dict has the method. *)
Definition py_get (v : json) (key : pystr) (dflt : json) : result json :=
  match v with
  | JDict items => inr (default dflt (assoc key items))
  | _ => inl (AttributeError
                (U "'" ++ type_name v ++ U "' object has no attribute 'get'"))
  end.

(** The items of [sep.join(iterable)] must all be [str]; [i] is the index
    of the item under inspection. *)
Fixpoint str_items (i : N) (l : list json) : result (list pystr) :=
  match l with
  | [] => inr []
  | JStr s :: rest =>
      match str_items (N.succ i) rest with
      | inr ss => inr (s :: ss)
      | inl e => inl e
      end
  | v :: _ =>
      inl (TypeError (U "sequence item " ++ str_of_N i
                        ++ U ": expected str instance, "
                        ++ type_name v ++ U " found"))
  end.

(** [sep.join(v)] for a decoded JSON value [v]: a list is joined item by
    item, a string character by character, a dict key by key; nothing else
    is iterable. *)
Definition py_join (sep : pystr) (v : json) : result pystr :=
  match v with
  | JList l =>
      match str_items 0 l with
      | inr ss => inr (join sep ss)
      | inl e => inl e
      end
  | JStr s => inr (join sep (map (fun c => [c]) s))
  | JDict items => inr (join sep (map fst items))
  | _ => inl (TypeError (U "can only join an iterable"))
  end.

(** [len(v)] *)
Definition py_len (v : json) : result Z :=
  match v with
  | JList l => inr (Z.of_nat (length l))
  | JStr s => inr (Z.of_nat (length s))
  | JDict items => inr (Z.of_nat (length items))
  | _ => inl (TypeError (U "object of type '" ++ type_name v
                           ++ U "' has no len()"))
  end.

(** ** ElementTree *)

(** An [Element]: tag, attribute dictionary, text before the first child,
    children in document order, text after the end tag. *)
#[warnings="-register-all"]
Inductive Element :=
| mkElement (tag : pystr) (attrib : gmap (list N) (list N))
            (text : option pystr) (children : list Element)
            (tail : option pystr).

Definition tag (e : Element) : pystr :=
  match e with mkElement t _ _ _ _ => t end.
Definition attrib (e : Element) : gmap (list N) (list N) :=
  match e with mkElement _ a _ _ _ => a end.
Definition text (e : Element) : option pystr :=
  match e with mkElement _ _ x _ _ => x end.
Definition children (e : Element) : list Element :=
  match e with mkElement _ _ _ cs _ => cs end.

(** [elem.iter()]: the element, then its subtree, in document order. *)
Fixpoint iter (e : Element) : list Element :=
  match e with
  | mkElement _ _ _ cs _ => e :: flat_map iter cs
  end.

(** The ElementPath expressions of the program, after tokenizing:
    [.] selects the context element, [//t] its proper descendants tagged
    [t], [/t] the children tagged [t], [[@k='v']] keeps the elements whose
    attribute [k] is [v]. *)
Inductive step :=
| Self
| Descendant (t : pystr)
| Child (t : pystr)
| AttribEq (key value : pystr).

Definition select (st : step) (res : list Element) : list Element :=
  match st with
  | Self => res
  | Descendant t =>
      flat_map (fun elem =>
                  filter (fun e => tag e = t) (flat_map iter (children elem)))
               res
  | Child t =>
      flat_map (fun elem => filter (fun e => tag e = t) (children elem)) res
  | AttribEq key value =>
      filter (fun elem => attrib elem !! key = Some value) res
  end.

(** [elem.findall(path)] *)
Definition findall (elem : Element) (path : list step) : list Element :=
  fold_left (fun res st => select st res) path [elem].

(** [elem.findtext(path, default)]: the text of the first match, the empty
    string when that element has no text, [default] when nothing matches. *)
Definition findtext (elem : Element) (path : list step) (dflt : pystr)
  : pystr :=
  match findall elem path with
  | [] => dflt
  | e :: _ => default [] (text e)
  end.

(** ** Effects *)

(** A value of the [params] dictionary of a request. *)
Inductive param :=
| PStr (s : pystr)
| PInt (z : Z).

(** What an invocation does to the outside world, in order. *)
Inductive event :=
| LogInfo (msg : pystr)
| HttpGet (url : pystr) (params : list (string * param)).

(** A [requests.Response]: the raw body and what [.json()] makes of it. *)
Record Response := mkResponse {
  content : list Byte.byte;
  json_body : result json
}.

#[global] Instance byte_eq_decision : EqDecision Byte.byte := Strings.Byte.byte_eq_dec.

(** Outcome of the expat parser behind [ET.fromstring]. *)
Inductive parsed :=
| WellFormed (root : Element)
| NotWellFormed (text : pystr) (line column : N).

(** Computations that may raise and that extend the trace of events. *)
Definition M (A : Type) : Type := list event -> result A * list event.

Definition ret {A} (a : A) : M A := fun tr => (inr a, tr).

Definition bind {A B} (m : M A) (k : A -> M B) : M B :=
  fun tr =>
    match m tr with
    | (inr a, tr') => k a tr'
    | (inl e, tr') => (inl e, tr')
    end.

(** A pure step that may raise. *)
Definition lift {A} (r : result A) : M A := fun tr => (r, tr).

Definition emit (ev : event) : M unit := fun tr => (inr tt, tr ++ [ev]).

(** [try: body except Exception as e: handler] *)
Definition try_except {A} (body : M A) (handler : PyExc -> M A) : M A :=
  fun tr =>
    match body tr with
    | (inr a, tr') => (inr a, tr')
    | (inl e, tr') => handler e tr'
    end.

#[global] Instance M_ret : MRet M := @ret.
#[global] Instance M_bind : MBind M := fun A B k m => bind m k.

(** Truth value of a sequence: non-empty. *)
Definition truthy {A} (l : list A) : bool :=
  match l with [] => false | _ => true end.

(** ** The program *)

Definition BASE_URL : pystr := U "https://eutils.ncbi.nlm.nih.gov/entrez/eutils".

(** The "not available" marker. *)
Definition NA : pystr := U "N/A".

(** Lines 38-48 of [search_pubmed]: the query string. *)
Definition build_query (title_abstract_keywords authors : list pystr) : pystr :=
  let query_parts := [] in
  let query_parts :=
    if truthy authors then
      let author_query :=
        join (U " OR ") (map (fun author => author ++ U "[Author]") authors) in
      query_parts ++ [U "(" ++ author_query ++ U ")"]
    else query_parts in
  let query_parts :=
    if truthy title_abstract_keywords then
      let keyword_query :=
        join (U " OR ")
             (map (fun keyword => keyword ++ U "[Title/Abstract]")
                  title_abstract_keywords) in
      query_parts ++ [U "(" ++ keyword_query ++ U ")"]
    else query_parts in
  if truthy query_parts then join (U " AND ") query_parts else U "".

Definition search_url : pystr := BASE_URL ++ U "/esearch.fcgi".

Definition search_params (query : pystr) (num_results : Z)
  : list (string * param) :=
  [ ("db", PStr (U "pubmed")); ("term", PStr query);
    ("retmax", PInt num_results); ("retmode", PStr (U "json")) ].

Definition fetch_url : pystr := BASE_URL ++ U "/efetch.fcgi".

Definition fetch_params (ids : pystr) : list (string * param) :=
  [ ("db", PStr (U "pubmed")); ("id", PStr ids); ("retmode", PStr (U "xml")) ].

(** The body of the loop of [parse_article_details]: one record. *)
Definition article_record (article : Element) : pyval :=
  let title := findtext article [Self; Descendant (U "ArticleTitle")] NA in
  let abstract :=
    findtext article
      [Self; Descendant (U "Abstract"); Child (U "AbstractText")] NA in
  let journal :=
    findtext article [Self; Descendant (U "Journal"); Child (U "Title")] NA in
  let volume :=
    findtext article
      [Self; Descendant (U "Journal"); Child (U "JournalIssue");
       Child (U "Volume")] NA in
  let issue :=
    findtext article
      [Self; Descendant (U "Journal"); Child (U "JournalIssue");
       Child (U "Issue")] NA in
  let pages :=
    findtext article
      [Self; Descendant (U "Pagination"); Child (U "MedlinePgn")] NA in
  let doi :=
    findtext article
      [Self; Descendant (U "ELocationID"); AttribEq (U "EIdType") (U "doi")]
      NA in
  let pubdate :=
    findtext article [Self; Descendant (U "PubDate"); Child (U "Year")] NA in
  let authors :=
    map (fun author =>
           let lastname := findtext author [Child (U "LastName")] (U "") in
           let initials := findtext author [Child (U "Initials")] (U "") in
           strip (lastname ++ U " " ++ initials))
        (findall article [Self; Descendant (U "Author")]) in
  PyDict (list_to_map
    [ ("pubmed_id", PyStr (findtext article [Self; Descendant (U "PMID")] NA));
      ("link", PyStr (U "https://pubmed.ncbi.nlm.nih.gov/"
                        ++ findtext article [Self; Descendant (U "PMID")] NA));
      ("title", PyStr title);
      ("authors", PyList (map PyStr authors));
      ("source", PyStr journal);
      ("volume", PyStr volume);
      ("issue", PyStr issue);
      ("pages", PyStr pages);
      ("doi", PyStr doi);
      ("pubdate", PyStr pubdate);
      ("abstract", PyStr abstract) ]).

Section Pipeline.

(** The remote service and the XML parser are outside the program. *)
Variable remote : pystr -> list (string * param) -> result Response.
Variable expat : list Byte.byte -> parsed.

(** [requests.get(url, params=params)] *)
Definition requests_get (url : pystr) (params : list (string * param))
  : M Response :=
  emit (HttpGet url params);; lift (remote url params).

(** [logging.info(msg)] *)
Definition logging_info (msg : pystr) : M unit := emit (LogInfo msg).

(** [ET.fromstring(xml_content)] *)
Definition fromstring (xml_content : list Byte.byte) : result Element :=
  match expat xml_content with
  | WellFormed root => inr root
  | NotWellFormed text line column => inl (ParseError text line column)
  end.

Definition parse_article_details (xml_content : list Byte.byte)
  : result (list pyval) :=
  match fromstring xml_content with
  | inl e => inl e
  | inr root =>
      let articles := findall root [Self; Descendant (U "PubmedArticle")] in
      inr (map article_record articles)
  end.

Definition format_paper_details (pubmed_ids : json) : M (list pyval) :=
  ids ← lift (py_join (U ",") pubmed_ids);
  fetch_response ← requests_get fetch_url (fetch_params ids);
  lift (parse_article_details (content fetch_response)).

Definition search_pubmed (title_abstract_keywords authors : list pystr)
                         (num_results : Z) : M pyval :=
  try_except
    (let query := build_query title_abstract_keywords authors in
     if negb (truthy query) then
       ret (PyDict (list_to_map
         [ ("success", PyBool false);
           ("error", PyStr (U "No search parameters provided. Please specify authors or keywords."));
           ("results", PyList []) ]))
     else
       logging_info (U "Search query: " ++ query);;
       search_response ←
         requests_get search_url (search_params query num_results);
       search_data ← lift (json_body search_response);
       esearchresult ←
         lift (py_get search_data (U "esearchresult") (JDict []));
       pmids ← lift (py_get esearchresult (U "idlist") (JList []));
       formatted_results ← format_paper_details pmids;
       total_results ← lift (py_len pmids);
       ret (PyDict (list_to_map
         [ ("success", PyBool true);
           ("results", PyList formatted_results);
           ("total_results", PyInt total_results) ])))
    (fun e =>
       ret (PyDict (list_to_map
         [ ("success", PyBool false);
           ("error", PyStr (str_exc e));
           ("results", PyList []) ]))).

End Pipeline.

(** ** Sample documents and a sample remote service *)

Module Samples.

Definition bytes (s : string) : list Byte.byte := list_byte_of_string s.

(** An element without attributes and without tail. *)
Definition node (t : string) (cs : list Element) : Element :=
  mkElement (U t) ∅ None cs None.
Definition leaf (t x : string) : Element :=
  mkElement (U t) ∅ (Some (U x)) [] None.
Definition eloc (kind x : string) : Element :=
  mkElement (U "ELocationID") {[ U "EIdType" := U kind ]} (Some (U x)) [] None.

(** A complete article without an [Abstract] element; its second author
    element is empty and its first author is listed twice. *)
Definition article1 : Element :=
  node "PubmedArticle"
    [ node "MedlineCitation"
        [ leaf "PMID" "111";
          node "Article"
            [ node "Journal"
                [ node "JournalIssue"
                    [ leaf "Volume" "12"; leaf "Issue" "3";
                      node "PubDate" [leaf "Year" "2020"; leaf "Month" "Jan"] ];
                  leaf "Title" "Nature" ];
              leaf "ArticleTitle" "On cells";
              node "Pagination" [leaf "MedlinePgn" "1-9"];
              eloc "pii" "S1"; eloc "doi" "10.1/x";
              node "AuthorList"
                [ node "Author" [leaf "LastName" "Doe"; leaf "Initials" "JP"];
                  node "Author" [];
                  node "Author" [leaf "LastName" "Doe"; leaf "Initials" "JP"];
                  node "Author" [leaf "LastName" "Smith"] ] ] ] ].

(** An article that has nothing but an abstract. *)
Definition article2 : Element :=
  node "PubmedArticle"
    [ node "MedlineCitation"
        [ node "Article"
            [ node "Abstract"
                [leaf "AbstractText" "First."; leaf "AbstractText" "Second."] ] ] ].

(** An article element with no content at all. *)
Definition article0 : Element := node "PubmedArticle" [].

Definition doc2 : Element := node "PubmedArticleSet" [article1; article2].

(** A document whose root element is itself an article element. *)
Definition article_root : Element := node "PubmedArticle" [leaf "PMID" "111"].

(** The serialization of [doc2]. *)
Definition body_doc2 : list Byte.byte :=
  bytes (String.concat ""
    [ "<PubmedArticleSet>";
      "<PubmedArticle><MedlineCitation><PMID>111</PMID><Article>";
      "<Journal><JournalIssue><Volume>12</Volume><Issue>3</Issue>";
      "<PubDate><Year>2020</Year><Month>Jan</Month></PubDate></JournalIssue>";
      "<Title>Nature</Title></Journal>";
      "<ArticleTitle>On cells</ArticleTitle>";
      "<Pagination><MedlinePgn>1-9</MedlinePgn></Pagination>";
      "<ELocationID EIdType='pii'>S1</ELocationID>";
      "<ELocationID EIdType='doi'>10.1/x</ELocationID>";
      "<AuthorList>";
      "<Author><LastName>Doe</LastName><Initials>JP</Initials></Author>";
      "<Author/>";
      "<Author><LastName>Doe</LastName><Initials>JP</Initials></Author>";
      "<Author><LastName>Smith</LastName></Author>";
      "</AuthorList></Article></MedlineCitation></PubmedArticle>";
      "<PubmedArticle><MedlineCitation><Article><Abstract>";
      "<AbstractText>First.</AbstractText><AbstractText>Second.</AbstractText>";
      "</Abstract></Article></MedlineCitation></PubmedArticle>";
      "</PubmedArticleSet>" ]).
Definition body_article : list Byte.byte := bytes "<PubmedArticle><PMID>111</PMID></PubmedArticle>".
Definition body_garbage : list Byte.byte := bytes "not xml".

(** A parser that knows the sample bodies and rejects everything else
    the way expat rejects text before the root element. *)
Definition expat (body : list Byte.byte) : parsed :=
  if decide (body = body_doc2) then WellFormed doc2
  else if decide (body = body_article) then
    WellFormed article_root
  else NotWellFormed (U "syntax error") 1 0.

Definition idlist3 : json := JList [JStr (U "111"); JStr (U "222"); JStr (U "333")].

Definition search_json (ids : json) : json :=
  JDict [ (U "header", JDict []);
          (U "esearchresult", JDict [(U "count", JStr (U "3")); (U "idlist", ids)]) ].

(** A service that finds three identifiers and answers the fetch with
    [fetched]. *)
Definition remote (fetched : list Byte.byte) (url : pystr)
                  (params : list (string * param)) : result Response :=
  if decide (url = search_url) then
    inr (mkResponse [] (inr (search_json idlist3)))
  else
    inr (mkResponse fetched
           (inl (Raised "JSONDecodeError" (U "Expecting value: line 1 column 1 (char 0)")))).

End Samples.

(** ** Vocabulary of the statements *)

(** The keys of a record that [parse_article_details] fills with
    [findtext] and the marker as default, each with its path. *)
Definition text_fields : list (string * list step) :=
  [ ("pubmed_id", [Self; Descendant (U "PMID")]);
    ("title", [Self; Descendant (U "ArticleTitle")]);
    ("source", [Self; Descendant (U "Journal"); Child (U "Title")]);
    ("volume", [Self; Descendant (U "Journal"); Child (U "JournalIssue");
                Child (U "Volume")]);
    ("issue", [Self; Descendant (U "Journal"); Child (U "JournalIssue");
               Child (U "Issue")]);
    ("pages", [Self; Descendant (U "Pagination"); Child (U "MedlinePgn")]);
    ("doi", [Self; Descendant (U "ELocationID");
             AttribEq (U "EIdType") (U "doi")]);
    ("pubdate", [Self; Descendant (U "PubDate"); Child (U "Year")]);
    ("abstract", [Self; Descendant (U "Abstract"); Child (U "AbstractText")]) ].

(** The elements strictly below [e], in document order. *)
Definition below (e : Element) : list Element := flat_map iter (children e).

(** The elements of [es] tagged [t], in order. *)
Definition tagged (t : pystr) (es : list Element) : list Element :=
  filter (λ e, tag e = t) es.

(** The children tagged [t] of the elements of [es], in order. *)
Definition under (t : pystr) (es : list Element) : list Element :=
  flat_map (λ e, tagged t (children e)) es.

(** The text of the first element of [es], empty when that element has no
    text; [dflt] when [es] is empty. *)
Definition first_text (dflt : pystr) (es : list Element) : pystr :=
  match es with
  | [] => dflt
  | e :: _ => default [] (text e)
  end.

(** [t] is [s] without its leading and trailing whitespace. *)
Definition trimmed (s t : pystr) : Prop :=
  ∃ pre post,
    s = pre ++ t ++ post
    ∧ Forall (λ c, isspace c = true) pre
    ∧ Forall (λ c, isspace c = true) post
    ∧ (∀ c, head t = Some c → isspace c = false)
    ∧ (∀ c, last t = Some c → isspace c = false).

(** ** The envelopes and the remote stages *)

(** The dictionary of lines 51-55 and 79-83. *)
Definition failure_envelope (error : pystr) : pyval :=
  PyDict (list_to_map
    [ ("success", PyBool false); ("error", PyStr error); ("results", PyList []) ]).

(** The dictionary of lines 72-76. *)
Definition success_envelope (formatted_results : list pyval) (total_results : Z) : pyval :=
  PyDict (list_to_map
    [ ("success", PyBool true); ("results", PyList formatted_results);
      ("total_results", PyInt total_results) ]).

(** The two remote stages of [search_pubmed] as pure steps. *)
Section Stages.

Variable remote : pystr → list (string * param) → result Response.
Variable expat : list Byte.byte → parsed.

(** Lines 66-68: what the search request yields as [pmids]. *)
Definition identifier_search (query : pystr) (num_results : Z) : result json :=
  match remote search_url (search_params query num_results) with
  | inl e => inl e
  | inr search_response =>
      match json_body search_response with
      | inl e => inl e
      | inr search_data =>
          match py_get search_data (U "esearchresult") (JDict []) with
          | inl e => inl e
          | inr esearchresult => py_get esearchresult (U "idlist") (JList [])
          end
      end
  end.

(** Lines 105-106: what the fetch request yields as records. *)
Definition fetch_records (ids : pystr) : result (list pyval) :=
  match remote fetch_url (fetch_params ids) with
  | inl e => inl e
  | inr fetch_response => parse_article_details expat (content fetch_response)
  end.
End Stages.

(** ** More sample services and elements *)

Module Scenarios.

(** A service with a fixed outcome per endpoint. *)
Definition service (search fetch : result Response)
  (url : pystr) (params : list (string * param)) : result Response :=
  if decide (url = search_url) then search else fetch.

Definition unreachable : PyExc :=
  Raised "ConnectionError" (U "Max retries exceeded with url").


Definition answer (data : json) : result Response :=
  inr (mkResponse [] (inr data)).


(** An article whose location identifiers are not of type [doi]. *)
Definition article_pii : Element :=
  Samples.node "PubmedArticle"
    [ Samples.leaf "PMID" "7"; Samples.eloc "pii" "S1"; Samples.eloc "pmc" "PMC1" ].

(** An article whose first location identifier is not the doi. *)
Definition article_doi_second : Element :=
  Samples.node "PubmedArticle"
    [ Samples.eloc "pii" "S1"; Samples.eloc "doi" "10.1/x"; Samples.eloc "doi" "10.2/y" ].



End Scenarios.

(** * Properties *)

(** ** The query builder *)

Lemma truthy_true {A} (l : list A) : l ≠ [] → truthy l = true.
Proof. destruct l; [congruence | reflexivity]. Qed.

(** A clause is never the empty string, so the query is empty exactly when
    no clause was built. *)
Lemma build_query_truthy (title_abstract_keywords authors : list pystr) :
  truthy (build_query title_abstract_keywords authors)
  = truthy authors || truthy title_abstract_keywords.
Proof.
  destruct authors as [|a authors], title_abstract_keywords as [|k keywords];
    reflexivity.
Qed.

(** C1: with authors and keywords both given, the query is the
    parenthesized OR-join of the authors tagged [[Author]], then " AND ",
    then the parenthesized OR-join of the keywords tagged
    [[Title/Abstract]]; with authors only it is the parenthesized author
    clause; the two examples of the specification evaluate as stated. *)
Theorem build_query_clauses (title_abstract_keywords authors : list pystr) :
  authors ≠ [] →
  (title_abstract_keywords ≠ [] →
   build_query title_abstract_keywords authors
   = (U "(" ++ join (U " OR ") (map (λ author, author ++ U "[Author]") authors)
        ++ U ")")
     ++ U " AND "
     ++ (U "(" ++ join (U " OR ")
                    (map (λ keyword, keyword ++ U "[Title/Abstract]")
                         title_abstract_keywords)
           ++ U ")"))
  ∧ build_query [] authors
    = U "(" ++ join (U " OR ") (map (λ author, author ++ U "[Author]") authors)
        ++ U ")"
  ∧ build_query [] [U "Doe JP"; U "Smith A"]
    = U "(Doe JP[Author] OR Smith A[Author])"
  ∧ build_query [U "cancer"] [U "Doe JP"]
    = U "(Doe JP[Author]) AND (cancer[Title/Abstract])".
Proof.
  intros Hauthors. split; [| split; [| split]].
  - intros Hkeywords.
    destruct authors as [|a authors]; [congruence |].
    destruct title_abstract_keywords as [|k keywords]; [congruence |].
    reflexivity.
  - destruct authors as [|a authors]; [congruence | reflexivity].
  - reflexivity.
  - reflexivity.
Qed.

Lemma build_query_clauses_witness :
  [U "Doe JP"] ≠ []
  ∧ ([U "cancer"] ≠ [] →
     build_query [U "cancer"] [U "Doe JP"]
     = (U "(" ++ join (U " OR ") (map (λ author, author ++ U "[Author]") [U "Doe JP"])
          ++ U ")")
       ++ U " AND "
       ++ (U "(" ++ join (U " OR ")
                      (map (λ keyword, keyword ++ U "[Title/Abstract]")
                           [U "cancer"])
             ++ U ")")).
Proof.
  split; [discriminate |].
  apply (build_query_clauses [U "cancer"] [U "Doe JP"]). discriminate.
Defined.

(** ** The envelope without criteria *)

(** C2: with no keyword and no author, whatever the result cap, the remote
    service and the parser, the call returns the failure envelope
    ([success] false, the fixed error text, no result) and leaves the trace
    as it found it: neither endpoint is requested. *)
Theorem search_pubmed_no_criteria
    (remote : pystr → list (string * param) → result Response)
    (expat : list Byte.byte → parsed) (num_results : Z) (tr : list event) :
  ∃ envelope,
    search_pubmed remote expat [] [] num_results tr = (inr envelope, tr)
    ∧ py_keys envelope = {[ "success"; "error"; "results" ]}
    ∧ py_item envelope "success" = Some (PyBool false)
    ∧ py_item envelope "error"
      = Some (PyStr (U "No search parameters provided. Please specify authors or keywords."))
    ∧ U "No search parameters provided. Please specify authors or keywords." ≠ []
    ∧ py_item envelope "results" = Some (PyList []).
Proof.
  eexists. split; [reflexivity |].
  repeat split; try reflexivity; try discriminate.
Qed.

(** ** Strings *)

Lemma lstrip_spec (s : pystr) :
  ∃ pre, s = pre ++ lstrip s
         ∧ Forall (λ c, isspace c = true) pre
         ∧ (∀ c, head (lstrip s) = Some c → isspace c = false).
Proof.
  induction s as [|c s IH]; simpl.
  - exists []. repeat split; [constructor | discriminate].
  - destruct (isspace c) eqn:Hc.
    + destruct IH as (pre & Hs & Hpre & Hhead).
      exists (c :: pre). repeat split; [simpl; congruence | by constructor | done].
    + exists []. repeat split; [constructor |].
      intros c' [= <-]. exact Hc.
Qed.

Lemma strip_trimmed (s : pystr) : trimmed s (strip s).
Proof.
  unfold strip, rstrip.
  destruct (lstrip_spec s) as (pre & Hs & Hpre & Hhead).
  destruct (lstrip_spec (reverse (lstrip s))) as (p & Hr & Hp & Hlast).
  set (t := lstrip s) in *. set (r := lstrip (reverse t)) in *.
  assert (Ht : t = reverse r ++ reverse p).
  { by rewrite <- reverse_app, <- Hr, reverse_involutive. }
  exists pre, (reverse p). repeat split.
  - by rewrite <- Ht.
  - exact Hpre.
  - by apply Forall_reverse.
  - intros c Hc. apply Hhead. rewrite Ht.
    destruct (reverse r); [discriminate | exact Hc].
  - intros c Hc. apply Hlast. by rewrite last_reverse in Hc.
Qed.

Lemma strip_blank : strip (U "" ++ U " " ++ U "") = U "".
Proof. reflexivity. Qed.

Example strip_inner_space_kept :
  strip (U "  Doe  JP " ++ [133; 8232; 10]%N) = U "Doe  JP".
Proof. reflexivity. Qed.

Example strip_last_name_only : strip (U "Smith" ++ U " " ++ U "") = U "Smith".
Proof. reflexivity. Qed.

Example join_ids_example :
  py_join (U ",") Samples.idlist3 = inr (U "111,222,333").
Proof. reflexivity. Qed.

Example join_rejects_numbers :
  py_join (U ",") (JList [JStr (U "1"); JInt 2])
  = inl (TypeError (U "sequence item 1: expected str instance, int found")).
Proof. reflexivity. Qed.

(** ** Paths *)

Example findall_document_order :
  findall Samples.doc2 [Self; Descendant (U "PubmedArticle")]
  = [Samples.article1; Samples.article2].
Proof. reflexivity. Qed.

Example findtext_first_abstract_text :
  findtext Samples.article2
    [Self; Descendant (U "Abstract"); Child (U "AbstractText")] NA
  = U "First.".
Proof. reflexivity. Qed.

Example findtext_doi_by_attribute :
  findtext Samples.article1
    [Self; Descendant (U "ELocationID"); AttribEq (U "EIdType") (U "doi")] NA
  = U "10.1/x".
Proof. reflexivity. Qed.

Lemma findall_descendant (e : Element) (t : pystr) :
  findall e [Self; Descendant t] = filter (λ x, tag x = t) (below e).
Proof. unfold findall, below. simpl. apply app_nil_r. Qed.

Lemma findall_descendant_child (e : Element) (t c : pystr) :
  findall e [Self; Descendant t; Child c]
  = flat_map (λ elem, filter (λ x, tag x = c) (children elem))
             (filter (λ x, tag x = t) (below e)).
Proof. unfold findall, below. simpl. by rewrite app_nil_r. Qed.

Lemma filter_none {A} (P : A → Prop) `{∀ x, Decision (P x)} (l : list A) :
  Forall (λ x, ¬ P x) l → filter P l = [].
Proof.
  induction 1 as [|x l Hx _ IH]; [reflexivity |].
  rewrite filter_cons. by destruct (decide (P x)).
Qed.

Lemma findtext_absent (e : Element) (path : list step) (dflt : pystr) :
  findall e path = [] → findtext e path dflt = dflt.
Proof. unfold findtext. by intros ->. Qed.

Lemma findtext_first (e first : Element) (rest : list Element)
                     (path : list step) (dflt : pystr) :
  findall e path = first :: rest → findtext e path dflt = default [] (text first).
Proof. unfold findtext. by intros ->. Qed.

(** ** One record *)

Lemma record_keys (article : Element) :
  py_keys (article_record article)
  = {[ "pubmed_id"; "link"; "title"; "authors"; "source"; "volume"; "issue";
       "pages"; "doi"; "pubdate"; "abstract" ]}.
Proof. reflexivity. Qed.

Lemma record_text_field (article : Element) (key : string) (path : list step) :
  (key, path) ∈ text_fields →
  py_item (article_record article) key = Some (PyStr (findtext article path NA)).
Proof.
  unfold text_fields. intros Hin.
  repeat (apply elem_of_cons in Hin as [[= -> ->] | Hin]; [reflexivity |]).
  by apply elem_of_nil in Hin.
Qed.

Lemma record_authors (article : Element) :
  py_item (article_record article) "authors"
  = Some (PyList (map PyStr
      (map (λ author,
              strip (findtext author [Child (U "LastName")] (U "") ++ U " "
                     ++ findtext author [Child (U "Initials")] (U "")))
           (findall article [Self; Descendant (U "Author")])))).
Proof. reflexivity. Qed.

Lemma record_link (article : Element) :
  py_item (article_record article) "link"
  = Some (PyStr (U "https://pubmed.ncbi.nlm.nih.gov/"
                   ++ findtext article [Self; Descendant (U "PMID")] NA)).
Proof. reflexivity. Qed.

(** The fields of a record, read off the tree. *)

Lemma findall_below (e : Element) (t : pystr) (rest : list step) :
  findall e (Self :: Descendant t :: rest)
  = fold_left (λ res st, select st res) rest (tagged t (below e)).
Proof. unfold findall, tagged, below. simpl. by rewrite app_nil_r. Qed.

Lemma findtext_child (e : Element) (t dflt : pystr) :
  findtext e [Child t] dflt = first_text dflt (tagged t (children e)).
Proof. unfold findtext, findall, tagged. simpl. by rewrite app_nil_r. Qed.

Lemma findtext_below (e : Element) (t : pystr) (rest : list step)
                     (dflt : pystr) :
  findtext e (Self :: Descendant t :: rest) dflt
  = first_text dflt
      (fold_left (λ res st, select st res) rest (tagged t (below e))).
Proof. unfold findtext. by rewrite findall_below. Qed.

Lemma record_authors_tree (article : Element) :
  py_item (article_record article) "authors"
  = Some (PyList (map PyStr
      (map (λ author,
              strip (first_text (U "") (tagged (U "LastName") (children author))
                     ++ U " "
                     ++ first_text (U "") (tagged (U "Initials") (children author))))
           (tagged (U "Author") (below article))))).
Proof.
  rewrite record_authors, findall_below. simpl fold_left.
  do 3 f_equal. apply map_ext. intros author. by rewrite !findtext_child.
Qed.

Lemma record_link_tree (article : Element) :
  py_item (article_record article) "link"
  = Some (PyStr (U "https://pubmed.ncbi.nlm.nih.gov/"
                   ++ first_text NA (tagged (U "PMID") (below article)))).
Proof. by rewrite record_link, findtext_below. Qed.

Ltac text_field article key path :=
  rewrite (record_text_field article key path)
    by (unfold text_fields; set_solver);
  rewrite findtext_below; reflexivity.

(** C5, as stated, fails: in an article element without content the
    sources of [authors] and of [link] are absent, yet neither field is the
    marker. *)
Lemma marker_for_every_absent_field_counterexample :
  findall Samples.article0 [Self; Descendant (U "Author")] = []
  ∧ py_item (article_record Samples.article0) "authors" = Some (PyList [])
  ∧ py_item (article_record Samples.article0) "authors" ≠ Some (PyStr NA)
  ∧ findall Samples.article0 [Self; Descendant (U "PMID")] = []
  ∧ py_item (article_record Samples.article0) "link"
    = Some (PyStr (U "https://pubmed.ncbi.nlm.nih.gov/N/A"))
  ∧ py_item (article_record Samples.article0) "link" ≠ Some (PyStr NA).
Proof. repeat split; try reflexivity; discriminate. Qed.

(** C5, amended: every record has all eleven keys; each of the nine fields
    read with [findtext] is the marker when its path matches nothing in the
    article element and the text of the first match otherwise, each path
    being spelled out on the tree; in particular an article without
    [Abstract] element has the marker as abstract; [authors] is the list of
    the author entries, empty when there is no author element, and [link]
    is the fixed address followed by the id value. *)
Theorem record_fields_present (article : Element) :
  py_keys (article_record article)
  = {[ "pubmed_id"; "link"; "title"; "authors"; "source"; "volume"; "issue";
       "pages"; "doi"; "pubdate"; "abstract" ]}
  ∧ (∀ key path, (key, path) ∈ text_fields →
       (findall article path = [] →
        py_item (article_record article) key = Some (PyStr NA))
       ∧ (∀ first rest, findall article path = first :: rest →
          py_item (article_record article) key
          = Some (PyStr (default [] (text first)))))
  ∧ (Forall (λ e, tag e ≠ U "Abstract") (below article) →
     py_item (article_record article) "abstract" = Some (PyStr NA))
  ∧ py_item (article_record article) "pubmed_id"
    = Some (PyStr (first_text NA (tagged (U "PMID") (below article))))
  ∧ py_item (article_record article) "title"
    = Some (PyStr (first_text NA (tagged (U "ArticleTitle") (below article))))
  ∧ py_item (article_record article) "source"
    = Some (PyStr (first_text NA
        (under (U "Title") (tagged (U "Journal") (below article)))))
  ∧ py_item (article_record article) "volume"
    = Some (PyStr (first_text NA
        (under (U "Volume")
           (under (U "JournalIssue") (tagged (U "Journal") (below article))))))
  ∧ py_item (article_record article) "issue"
    = Some (PyStr (first_text NA
        (under (U "Issue")
           (under (U "JournalIssue") (tagged (U "Journal") (below article))))))
  ∧ py_item (article_record article) "pages"
    = Some (PyStr (first_text NA
        (under (U "MedlinePgn") (tagged (U "Pagination") (below article)))))
  ∧ py_item (article_record article) "doi"
    = Some (PyStr (first_text NA
        (filter (λ e, attrib e !! U "EIdType" = Some (U "doi"))
           (tagged (U "ELocationID") (below article)))))
  ∧ py_item (article_record article) "pubdate"
    = Some (PyStr (first_text NA
        (under (U "Year") (tagged (U "PubDate") (below article)))))
  ∧ py_item (article_record article) "abstract"
    = Some (PyStr (first_text NA
        (under (U "AbstractText") (tagged (U "Abstract") (below article)))))
  ∧ py_item (article_record article) "authors"
    = Some (PyList (map PyStr
        (map (λ author,
                strip (first_text (U "") (tagged (U "LastName") (children author))
                       ++ U " "
                       ++ first_text (U "") (tagged (U "Initials") (children author))))
             (tagged (U "Author") (below article)))))
  ∧ (Forall (λ e, tag e ≠ U "Author") (below article) →
     py_item (article_record article) "authors" = Some (PyList []))
  ∧ py_item (article_record article) "link"
    = Some (PyStr (U "https://pubmed.ncbi.nlm.nih.gov/"
                     ++ first_text NA (tagged (U "PMID") (below article)))).
Proof.
  split; [apply record_keys |]. split; [| split].
  - intros key path Hin. rewrite (record_text_field _ _ _ Hin). split.
    + intros Hnone. by rewrite findtext_absent.
    + intros first rest Hsome. by rewrite (findtext_first _ _ _ _ _ Hsome).
  - intros Habs.
    rewrite (record_text_field article "abstract"
               [Self; Descendant (U "Abstract"); Child (U "AbstractText")])
      by (unfold text_fields; set_solver).
    rewrite findtext_absent; [done |].
    rewrite findall_descendant_child, filter_none; done.
  - split; [text_field article "pubmed_id" [Self; Descendant (U "PMID")] |].
    split; [text_field article "title" [Self; Descendant (U "ArticleTitle")] |].
    split; [text_field article "source"
              [Self; Descendant (U "Journal"); Child (U "Title")] |].
    split; [text_field article "volume"
              [Self; Descendant (U "Journal"); Child (U "JournalIssue");
               Child (U "Volume")] |].
    split; [text_field article "issue"
              [Self; Descendant (U "Journal"); Child (U "JournalIssue");
               Child (U "Issue")] |].
    split; [text_field article "pages"
              [Self; Descendant (U "Pagination"); Child (U "MedlinePgn")] |].
    split; [text_field article "doi"
              [Self; Descendant (U "ELocationID");
               AttribEq (U "EIdType") (U "doi")] |].
    split; [text_field article "pubdate"
              [Self; Descendant (U "PubDate"); Child (U "Year")] |].
    split; [text_field article "abstract"
              [Self; Descendant (U "Abstract"); Child (U "AbstractText")] |].
    split; [apply record_authors_tree |]. split; [| apply record_link_tree].
    intros Hnone. rewrite record_authors_tree. unfold tagged.
    by rewrite filter_none.
Qed.

Lemma record_fields_present_witness :
  py_item (article_record Samples.article1) "abstract" = Some (PyStr NA)
  ∧ py_item (article_record Samples.article1) "title" = Some (PyStr (U "On cells"))
  ∧ py_item (article_record Samples.article1) "source" = Some (PyStr (U "Nature"))
  ∧ py_item (article_record Samples.article1) "volume" = Some (PyStr (U "12"))
  ∧ py_item (article_record Samples.article1) "doi" = Some (PyStr (U "10.1/x"))
  ∧ py_item (article_record Samples.article1) "pubdate" = Some (PyStr (U "2020"))
  ∧ py_item (article_record Samples.article1) "link"
    = Some (PyStr (U "https://pubmed.ncbi.nlm.nih.gov/111"))
  ∧ py_item (article_record Samples.article2) "authors" = Some (PyList [])
  ∧ py_item (article_record Samples.article2) "link"
    = Some (PyStr (U "https://pubmed.ncbi.nlm.nih.gov/N/A")).
Proof.
  destruct (record_fields_present Samples.article1)
    as (_ & _ & Habs & _ & Htitle & Hsource & Hvolume & _ & _ & Hdoi & Hdate
        & _ & _ & _ & Hlink).
  destruct (record_fields_present Samples.article2)
    as (_ & _ & _ & _ & _ & _ & _ & _ & _ & _ & _ & _ & _ & Hnone & Hlink2).
  split; [apply Habs; vm_compute; repeat constructor; discriminate |].
  split; [rewrite Htitle; reflexivity |].
  split; [rewrite Hsource; reflexivity |].
  split; [rewrite Hvolume; reflexivity |].
  split; [rewrite Hdoi; reflexivity |].
  split; [rewrite Hdate; reflexivity |].
  split; [rewrite Hlink; reflexivity |].
  split; [apply Hnone; vm_compute; repeat constructor; discriminate |].
  rewrite Hlink2; reflexivity.
Defined.

(** The article of the samples has no [Abstract] element: its abstract is
    the marker and every other field is what the document says. *)
Example article1_record :
  article_record Samples.article1
  = PyDict (list_to_map
      [ ("pubmed_id", PyStr (U "111"));
        ("link", PyStr (U "https://pubmed.ncbi.nlm.nih.gov/111"));
        ("title", PyStr (U "On cells"));
        ("authors", PyList [PyStr (U "Doe JP"); PyStr (U ""); PyStr (U "Doe JP");
                            PyStr (U "Smith")]);
        ("source", PyStr (U "Nature"));
        ("volume", PyStr (U "12"));
        ("issue", PyStr (U "3"));
        ("pages", PyStr (U "1-9"));
        ("doi", PyStr (U "10.1/x"));
        ("pubdate", PyStr (U "2020"));
        ("abstract", PyStr NA) ]).
Proof. vm_compute. reflexivity. Qed.

(** C6: the authors field lists, for each author element of the article in
    document order, the text of its first [LastName] child, a space and the
    text of its first [Initials] child (each empty when missing), trimmed
    of surrounding whitespace; there is one entry per author element, so
    repeated names stay, and an author element without last name and
    initials contributes the empty string. *)
Theorem record_authors_built (article : Element) :
  py_item (article_record article) "authors"
  = Some (PyList (map PyStr
      (map (λ author,
              strip (first_text (U "") (tagged (U "LastName") (children author))
                     ++ U " "
                     ++ first_text (U "") (tagged (U "Initials") (children author))))
           (tagged (U "Author") (below article)))))
  ∧ (∀ names, py_item (article_record article) "authors" = Some (PyList names) →
       length names = length (tagged (U "Author") (below article)))
  ∧ (∀ author,
       trimmed (first_text (U "") (tagged (U "LastName") (children author))
                ++ U " "
                ++ first_text (U "") (tagged (U "Initials") (children author)))
               (strip (first_text (U "") (tagged (U "LastName") (children author))
                       ++ U " "
                       ++ first_text (U "") (tagged (U "Initials") (children author)))))
  ∧ (∀ author last_name initials others1 others2 surname letters,
       tagged (U "LastName") (children author) = last_name :: others1 →
       text last_name = Some surname →
       tagged (U "Initials") (children author) = initials :: others2 →
       text initials = Some letters →
       strip (first_text (U "") (tagged (U "LastName") (children author))
              ++ U " "
              ++ first_text (U "") (tagged (U "Initials") (children author)))
       = strip (surname ++ U " " ++ letters))
  ∧ (∀ author,
       Forall (λ e, tag e ≠ U "LastName") (children author) →
       Forall (λ e, tag e ≠ U "Initials") (children author) →
       strip (first_text (U "") (tagged (U "LastName") (children author))
              ++ U " "
              ++ first_text (U "") (tagged (U "Initials") (children author)))
       = U "")
  ∧ (∀ author,
       first_text (U "") (tagged (U "LastName") (children author)) = U "" →
       first_text (U "") (tagged (U "Initials") (children author)) = U "" →
       strip (first_text (U "") (tagged (U "LastName") (children author))
              ++ U " "
              ++ first_text (U "") (tagged (U "Initials") (children author)))
       = U "").
Proof.
  rewrite record_authors_tree. repeat split.
  - intros names [= <-]. by rewrite !length_map.
  - intros author. apply strip_trimmed.
  - intros author last_name initials others1 others2 surname letters
      -> Hsurname -> Hletters. simpl. by rewrite Hsurname, Hletters.
  - intros author Hlast Hinitials. unfold tagged.
    rewrite !filter_none by done. reflexivity.
  - intros author -> ->. apply strip_blank.
Qed.

Lemma record_authors_built_witness :
  py_item (article_record Samples.article1) "authors"
  = Some (PyList [PyStr (U "Doe JP"); PyStr (U ""); PyStr (U "Doe JP");
                  PyStr (U "Smith")]).
Proof.
  rewrite (proj1 (record_authors_built Samples.article1)). reflexivity.
Defined.

(** C7: the id is the text of the first [PMID] element below the article,
    or the marker when there is none, and the link is the fixed address
    followed by that same value: the text of the first [PMID] when one
    exists, the marker otherwise. *)
Theorem record_link_from_id (article : Element) :
  py_item (article_record article) "pubmed_id"
  = Some (PyStr (first_text NA (tagged (U "PMID") (below article))))
  ∧ py_item (article_record article) "link"
    = Some (PyStr (U "https://pubmed.ncbi.nlm.nih.gov/"
                     ++ first_text NA (tagged (U "PMID") (below article))))
  ∧ (∀ first rest,
       tagged (U "PMID") (below article) = first :: rest →
       py_item (article_record article) "pubmed_id"
       = Some (PyStr (default [] (text first)))
       ∧ py_item (article_record article) "link"
         = Some (PyStr (U "https://pubmed.ncbi.nlm.nih.gov/"
                          ++ default [] (text first))))
  ∧ (Forall (λ e, tag e ≠ U "PMID") (below article) →
     py_item (article_record article) "pubmed_id" = Some (PyStr NA)
     ∧ py_item (article_record article) "link"
       = Some (PyStr (U "https://pubmed.ncbi.nlm.nih.gov/N/A"))).
Proof.
  assert (Hid : py_item (article_record article) "pubmed_id"
                = Some (PyStr (first_text NA (tagged (U "PMID") (below article))))).
  { rewrite (record_text_field article "pubmed_id" [Self; Descendant (U "PMID")])
      by (unfold text_fields; set_solver).
    by rewrite findtext_below. }
  rewrite Hid, record_link_tree.
  split; [reflexivity |]. split; [reflexivity |]. split.
  - intros first rest Hfirst. by rewrite Hfirst.
  - intros Hnone. unfold tagged. by rewrite filter_none.
Qed.

Lemma record_link_from_id_witness :
  py_item (article_record Samples.article1) "pubmed_id" = Some (PyStr (U "111"))
  ∧ py_item (article_record Samples.article1) "link"
    = Some (PyStr (U "https://pubmed.ncbi.nlm.nih.gov/111"))
  ∧ py_item (article_record Samples.article2) "link"
    = Some (PyStr (U "https://pubmed.ncbi.nlm.nih.gov/N/A")).
Proof.
  destruct (record_link_from_id Samples.article1) as (_ & _ & Hfirst & _).
  destruct (record_link_from_id Samples.article2) as (_ & _ & _ & Hnone).
  destruct (Hfirst (Samples.leaf "PMID" "111") []) as [Hid Hlink];
    [reflexivity |].
  split; [exact Hid |]. split; [exact Hlink |].
  apply Hnone. vm_compute. repeat constructor; discriminate.
Defined.



(** ** The pipeline *)

(** Expose the state passing of a run. *)
Ltac run_pipeline :=
  unfold search_pubmed, format_paper_details, requests_get, logging_info,
    try_except, mbind, M_bind, bind, lift, emit, ret.

(** Every run ends in one of the two dictionary literals of the source. *)
Lemma search_pubmed_outcome
    (remote : pystr → list (string * param) → result Response)
    (expat : list Byte.byte → parsed)
    (kws authors : list pystr) (num_results : Z) (tr : list event) :
  ∃ tr',
    (∃ error,
        search_pubmed remote expat kws authors num_results tr
        = (inr (PyDict (list_to_map
                  [("success", PyBool false); ("error", PyStr error);
                   ("results", PyList [])])), tr'))
    ∨ (∃ records total,
        search_pubmed remote expat kws authors num_results tr
        = (inr (PyDict (list_to_map
                  [("success", PyBool true); ("results", PyList records);
                   ("total_results", PyInt total)])), tr')).
Proof.
  run_pipeline.
  repeat case_match; simplify_eq; eexists;
    (left; eexists; reflexivity) || (right; eexists _, _; reflexivity).
Qed.

Lemma str_items_strs (i : N) (ids : list pystr) :
  str_items i (map JStr ids) = inr ids.
Proof.
  revert i. induction ids as [|s ids IH]; intros i; simpl; [done |].
  by rewrite IH.
Qed.

Lemma py_join_strs (sep : pystr) (ids : list pystr) :
  py_join sep (JList (map JStr ids)) = inr (join sep ids).
Proof. simpl. by rewrite str_items_strs. Qed.

Lemma py_len_strs (ids : list pystr) :
  py_len (JList (map JStr ids)) = inr (Z.of_nat (length ids)).
Proof. simpl. by rewrite length_map. Qed.

Lemma str_exc_ParseError_nonempty (text : pystr) (line column : N) :
  str_exc (ParseError text line column) ≠ [].
Proof.
  simpl. intros H. apply (f_equal length) in H.
  rewrite !length_app in H. simpl in H. lia.
Qed.

Lemma criteria_truthy (kws authors : list pystr) :
  authors ≠ [] ∨ kws ≠ [] →
  negb (truthy (build_query kws authors)) = false.
Proof.
  rewrite build_query_truthy.
  intros [H | H]; rewrite (truthy_true _ H); [done | by rewrite orb_true_r].
Qed.

(** C3: when the body of the fetch response is not well-formed,
    [parse_article_details] raises the parse error and yields no record,
    [format_paper_details] lets it through after the one fetch request, and
    [search_pubmed] returns the failure envelope whose error is the text of
    that exception, which is never empty, with an empty result list. *)
Theorem malformed_fetch_body
    (remote : pystr → list (string * param) → result Response)
    (expat : list Byte.byte → parsed)
    (body : list Byte.byte) (text : pystr) (line column : N) :
  expat body = NotWellFormed text line column →
  parse_article_details expat body = inl (ParseError text line column)
  ∧ (∀ pubmed_ids ids fetch_response tr,
       py_join (U ",") pubmed_ids = inr ids →
       remote fetch_url (fetch_params ids) = inr fetch_response →
       content fetch_response = body →
       format_paper_details remote expat pubmed_ids tr
       = (inl (ParseError text line column),
          tr ++ [HttpGet fetch_url (fetch_params ids)]))
  ∧ (∀ title_abstract_keywords authors num_results search_response
       search_data esearchresult pmids ids fetch_response tr,
       authors ≠ [] ∨ title_abstract_keywords ≠ [] →
       remote search_url
         (search_params (build_query title_abstract_keywords authors) num_results)
       = inr search_response →
       json_body search_response = inr search_data →
       py_get search_data (U "esearchresult") (JDict []) = inr esearchresult →
       py_get esearchresult (U "idlist") (JList []) = inr pmids →
       py_join (U ",") pmids = inr ids →
       remote fetch_url (fetch_params ids) = inr fetch_response →
       content fetch_response = body →
       ∃ envelope tr',
         search_pubmed remote expat title_abstract_keywords authors num_results tr
         = (inr envelope, tr')
         ∧ py_keys envelope = {[ "success"; "error"; "results" ]}
         ∧ py_item envelope "success" = Some (PyBool false)
         ∧ py_item envelope "error"
           = Some (PyStr (str_exc (ParseError text line column)))
         ∧ str_exc (ParseError text line column) ≠ []
         ∧ py_item envelope "results" = Some (PyList [])).
Proof.
  intros Hbody.
  assert (Hparse : parse_article_details expat body
                   = inl (ParseError text line column)).
  { unfold parse_article_details, fromstring. by rewrite Hbody. }
  split; [exact Hparse |]. split.
  - intros pubmed_ids ids fetch_response tr Hjoin Hfetch Hcontent.
    run_pipeline. by rewrite Hjoin, Hfetch, Hcontent, Hparse.
  - intros kws authors num_results search_response search_data esearchresult
      pmids ids fetch_response tr Hcrit Hsearch Hjson Hesr Hidlist Hjoin
      Hfetch Hcontent.
    run_pipeline.
    rewrite (criteria_truthy _ _ Hcrit), Hsearch, Hjson, Hesr, Hidlist, Hjoin,
      Hfetch, Hcontent, Hparse.
    eexists _, _. split; [reflexivity |].
    repeat split; try reflexivity. apply str_exc_ParseError_nonempty.
Qed.

Lemma malformed_fetch_body_witness :
  Samples.expat Samples.body_garbage = NotWellFormed (U "syntax error") 1 0
  ∧ parse_article_details Samples.expat Samples.body_garbage
    = inl (ParseError (U "syntax error") 1 0)
  ∧ ∃ envelope tr',
      search_pubmed (Samples.remote Samples.body_garbage) Samples.expat [U "cancer"] [] 10 []
      = (inr envelope, tr')
      ∧ py_item envelope "success" = Some (PyBool false)
      ∧ py_item envelope "error" = Some (PyStr (U "syntax error: line 1, column 0"))
      ∧ py_item envelope "results" = Some (PyList []).
Proof.
  assert (H : Samples.expat Samples.body_garbage = NotWellFormed (U "syntax error") 1 0)
    by reflexivity.
  destruct (malformed_fetch_body (Samples.remote Samples.body_garbage) Samples.expat
              Samples.body_garbage (U "syntax error") 1 0 H) as (Hparse & _ & Hsearch).
  split; [exact H |]. split; [exact Hparse |].
  destruct (Hsearch [U "cancer"] [] 10%Z
              (mkResponse [] (inr (Samples.search_json Samples.idlist3)))
              (Samples.search_json Samples.idlist3)
              (JDict [(U "count", JStr (U "3")); (U "idlist", Samples.idlist3)])
              Samples.idlist3 (U "111,222,333")
              (mkResponse Samples.body_garbage
                 (inl (Raised "JSONDecodeError"
                         (U "Expecting value: line 1 column 1 (char 0)"))))
              [])
    as (envelope & tr' & Hrun & _ & Hsuccess & Herror & _ & Hresults);
    [right; discriminate | reflexivity ..|].
  exists envelope, tr'. repeat split; assumption.
Defined.

(** C4, as stated, fails: a well-formed document whose root is itself an
    article element contains one article element and yields no record. *)
Lemma one_record_per_article_element_counterexample :
  Samples.expat Samples.body_article = WellFormed Samples.article_root
  ∧ filter (λ e, tag e = U "PubmedArticle") (iter Samples.article_root) = [Samples.article_root]
  ∧ parse_article_details Samples.expat Samples.body_article = inr []
  ∧ parse_article_details Samples.expat Samples.body_article
    ≠ inr (map article_record
             (filter (λ e, tag e = U "PubmedArticle") (iter Samples.article_root))).
Proof. repeat split; try reflexivity. discriminate. Qed.

(** C4, amended: the records are those of the article elements below the
    root of the document, one each and in document order, whatever
    identifiers were requested; in the success envelope [total_results] is
    the number of identifiers the search returned. *)
Theorem one_record_per_article_below_root
    (remote : pystr → list (string * param) → result Response)
    (expat : list Byte.byte → parsed)
    (body : list Byte.byte) (root : Element) :
  expat body = WellFormed root →
  parse_article_details expat body
  = inr (map article_record
           (filter (λ e, tag e = U "PubmedArticle") (below root)))
  ∧ (∀ pubmed_ids ids fetch_response tr,
       py_join (U ",") pubmed_ids = inr ids →
       remote fetch_url (fetch_params ids) = inr fetch_response →
       content fetch_response = body →
       format_paper_details remote expat pubmed_ids tr
       = (inr (map article_record
                 (filter (λ e, tag e = U "PubmedArticle") (below root))),
          tr ++ [HttpGet fetch_url (fetch_params ids)]))
  ∧ (∀ title_abstract_keywords authors num_results search_response
       search_data esearchresult (identifiers : list pystr)
       fetch_response tr,
       authors ≠ [] ∨ title_abstract_keywords ≠ [] →
       remote search_url
         (search_params (build_query title_abstract_keywords authors) num_results)
       = inr search_response →
       json_body search_response = inr search_data →
       py_get search_data (U "esearchresult") (JDict []) = inr esearchresult →
       py_get esearchresult (U "idlist") (JList [])
       = inr (JList (map JStr identifiers)) →
       remote fetch_url (fetch_params (join (U ",") identifiers))
       = inr fetch_response →
       content fetch_response = body →
       ∃ envelope tr',
         search_pubmed remote expat title_abstract_keywords authors num_results tr
         = (inr envelope, tr')
         ∧ py_keys envelope = {[ "success"; "results"; "total_results" ]}
         ∧ py_item envelope "success" = Some (PyBool true)
         ∧ py_item envelope "results"
           = Some (PyList (map article_record
                (filter (λ e, tag e = U "PubmedArticle") (below root))))
         ∧ py_item envelope "total_results"
           = Some (PyInt (Z.of_nat (length identifiers)))).
Proof.
  intros Hbody.
  assert (Hparse : parse_article_details expat body
                   = inr (map article_record
                            (filter (λ e, tag e = U "PubmedArticle") (below root)))).
  { unfold parse_article_details, fromstring.
    by rewrite Hbody, findall_descendant. }
  split; [exact Hparse |]. split.
  - intros pubmed_ids ids fetch_response tr Hjoin Hfetch Hcontent.
    run_pipeline. by rewrite Hjoin, Hfetch, Hcontent, Hparse.
  - intros kws authors num_results search_response search_data esearchresult
      identifiers fetch_response tr Hcrit Hsearch Hjson Hesr Hidlist
      Hfetch Hcontent.
    run_pipeline.
    rewrite (criteria_truthy _ _ Hcrit), Hsearch, Hjson, Hesr, Hidlist,
      py_join_strs, Hfetch, Hcontent, Hparse, py_len_strs.
    eexists _, _. split; [reflexivity |].
    repeat split; reflexivity.
Qed.

Lemma one_record_per_article_below_root_witness :
  Samples.expat Samples.body_doc2 = WellFormed Samples.doc2
  ∧ ∃ envelope tr',
      search_pubmed (Samples.remote Samples.body_doc2) Samples.expat [U "cancer"] [] 10 []
      = (inr envelope, tr')
      ∧ py_item envelope "results"
        = Some (PyList [article_record Samples.article1; article_record Samples.article2])
      ∧ py_item envelope "total_results" = Some (PyInt 3).
Proof.
  assert (H : Samples.expat Samples.body_doc2 = WellFormed Samples.doc2) by reflexivity.
  destruct (one_record_per_article_below_root (Samples.remote Samples.body_doc2)
              Samples.expat Samples.body_doc2 Samples.doc2 H) as (_ & _ & Hsearch).
  split; [exact H |].
  destruct (Hsearch [U "cancer"] [] 10%Z
              (mkResponse [] (inr (Samples.search_json Samples.idlist3)))
              (Samples.search_json Samples.idlist3)
              (JDict [(U "count", JStr (U "3")); (U "idlist", Samples.idlist3)])
              [U "111"; U "222"; U "333"]
              (mkResponse Samples.body_doc2
                 (inl (Raised "JSONDecodeError"
                         (U "Expecting value: line 1 column 1 (char 0)"))))
              [])
    as (envelope & tr' & Hrun & _ & _ & Hresults & Htotal);
    [right; discriminate | reflexivity ..|].
  exists envelope, tr'. repeat split; assumption.
Defined.

(** C9: every call returns a dictionary of one of two shapes: [success]
    true with [results] and [total_results] and no [error], or [success]
    false with a string [error] and empty [results] and no
    [total_results]. *)
Theorem search_pubmed_envelope_shape
    (remote : pystr → list (string * param) → result Response)
    (expat : list Byte.byte → parsed)
    (title_abstract_keywords authors : list pystr) (num_results : Z)
    (tr : list event) :
  ∃ envelope tr',
    search_pubmed remote expat title_abstract_keywords authors num_results tr
    = (inr envelope, tr')
    ∧ ((py_keys envelope = {[ "success"; "results"; "total_results" ]}
        ∧ py_item envelope "success" = Some (PyBool true)
        ∧ (∃ records, py_item envelope "results" = Some (PyList records))
        ∧ (∃ total, py_item envelope "total_results" = Some (PyInt total))
        ∧ py_item envelope "error" = None)
       ∨ (py_keys envelope = {[ "success"; "error"; "results" ]}
          ∧ py_item envelope "success" = Some (PyBool false)
          ∧ (∃ error, py_item envelope "error" = Some (PyStr error))
          ∧ py_item envelope "results" = Some (PyList [])
          ∧ py_item envelope "total_results" = None)).
Proof.
  destruct (search_pubmed_outcome remote expat title_abstract_keywords authors
              num_results tr) as (tr' & [(error & ->) | (records & total & ->)]);
    eexists _, tr'; (split; [reflexivity |]).
  - right. repeat split; try reflexivity. by eexists.
  - left. repeat split; try reflexivity; by eexists.
Qed.

(** ** Runs of the pipeline, stage by stage *)

Lemma search_pubmed_run
    (remote : pystr → list (string * param) → result Response)
    (expat : list Byte.byte → parsed)
    (kws authors : list pystr) (num_results : Z) (tr : list event) :
  authors ≠ [] ∨ kws ≠ [] →
  search_pubmed remote expat kws authors num_results tr
  = let query := build_query kws authors in
    let searched :=
      tr ++ [LogInfo (U "Search query: " ++ query);
             HttpGet search_url (search_params query num_results)] in
    match identifier_search remote query num_results with
    | inl e => (inr (failure_envelope (str_exc e)), searched)
    | inr pmids =>
        match py_join (U ",") pmids with
        | inl e => (inr (failure_envelope (str_exc e)), searched)
        | inr ids =>
            match fetch_records remote expat ids with
            | inl e => (inr (failure_envelope (str_exc e)),
                        searched ++ [HttpGet fetch_url (fetch_params ids)])
            | inr records =>
                match py_len pmids with
                | inl e => (inr (failure_envelope (str_exc e)),
                            searched ++ [HttpGet fetch_url (fetch_params ids)])
                | inr total =>
                    (inr (success_envelope records total),
                     searched ++ [HttpGet fetch_url (fetch_params ids)])
                end
            end
        end
    end.
Proof.
  intros Hcrit. run_pipeline. rewrite (criteria_truthy _ _ Hcrit).
  unfold identifier_search, fetch_records. cbn zeta.
  repeat case_match; simplify_eq; rewrite <- ?app_assoc; reflexivity.
Qed.

Lemma py_len_nonneg (v : json) (n : Z) : py_len v = inr n → (0 ≤ n)%Z.
Proof. destruct v; simpl; intros [= <-]; lia. Qed.

Lemma app_cons_neq {A} (l l' : list A) (x : A) : l ++ x :: l' ≠ l.
Proof.
  intros H. apply (f_equal length) in H. rewrite length_app in H. simpl in H. lia.
Qed.

(** X1: a call touches the outside world (log or request) exactly when one
    of the two lists is non-empty; a list of empty strings counts. *)
Theorem search_pubmed_silent_iff_no_criteria
    (remote : pystr → list (string * param) → result Response)
    (expat : list Byte.byte → parsed)
    (kws authors : list pystr) (num_results : Z) (tr : list event) :
  (search_pubmed remote expat kws authors num_results tr).2 = tr
  ↔ authors = [] ∧ kws = [].
Proof.
  split.
  - intros Htr.
    destruct authors as [|a authors], kws as [|k kws]; [done | exfalso ..];
      (rewrite search_pubmed_run in Htr; [| by (left + right)]);
      cbn zeta in Htr; repeat case_match; simpl in Htr;
      rewrite <- ?app_assoc in Htr; by apply app_cons_neq in Htr.
  - by intros [-> ->].
Qed.



(** X3: when the search request raises, or its response does not decode
    as JSON, the call returns the failure envelope with the text of that
    exception and never requests the fetch endpoint. *)
Theorem search_request_failure
    (remote : pystr → list (string * param) → result Response)
    (expat : list Byte.byte → parsed)
    (kws authors : list pystr) (num_results : Z) (tr : list event)
    (e : PyExc) :
  authors ≠ [] ∨ kws ≠ [] →
  remote search_url (search_params (build_query kws authors) num_results) = inl e
  ∨ (∃ search_response,
       remote search_url (search_params (build_query kws authors) num_results)
       = inr search_response
       ∧ json_body search_response = inl e) →
  search_pubmed remote expat kws authors num_results tr
  = (inr (failure_envelope (str_exc e)),
     tr ++ [LogInfo (U "Search query: " ++ build_query kws authors);
            HttpGet search_url
              (search_params (build_query kws authors) num_results)]).
Proof.
  intros Hcrit Hfail. rewrite (search_pubmed_run _ _ _ _ _ _ Hcrit). cbn zeta.
  unfold identifier_search.
  destruct Hfail as [-> | (search_response & -> & ->)]; reflexivity.
Qed.

Lemma search_request_failure_witness :
  (@nil (list N) ≠ [] ∨ [U "cancer"] ≠ [])
  ∧ search_pubmed (Scenarios.service (inl Scenarios.unreachable)
                     (inl Scenarios.unreachable))
      Samples.expat [U "cancer"] [] 10 []
    = (inr (failure_envelope (U "Max retries exceeded with url")),
       [LogInfo (U "Search query: (cancer[Title/Abstract])");
        HttpGet search_url (search_params (U "(cancer[Title/Abstract])") 10)]).
Proof.
  split; [right; discriminate |].
  apply (search_request_failure
           (Scenarios.service (inl Scenarios.unreachable) (inl Scenarios.unreachable))
           Samples.expat [U "cancer"] [] 10 [] Scenarios.unreachable).
  - right; discriminate.
  - left; reflexivity.
Defined.



(** X5: when the decoded search response, or its [esearchresult] entry, is
    not a dictionary, the call returns the failure envelope with the
    attribute error of [.get] and never requests the fetch endpoint. *)
Theorem search_json_not_a_dict
    (remote : pystr → list (string * param) → result Response)
    (expat : list Byte.byte → parsed)
    (kws authors : list pystr) (num_results : Z) (tr : list event)
    (search_response : Response) (search_data culprit : json) :
  authors ≠ [] ∨ kws ≠ [] →
  remote search_url (search_params (build_query kws authors) num_results)
  = inr search_response →
  json_body search_response = inr search_data →
  search_data = culprit
  ∨ (∃ items, search_data = JDict items
              ∧ assoc (U "esearchresult") items = Some culprit) →
  (∀ items, culprit ≠ JDict items) →
  search_pubmed remote expat kws authors num_results tr
  = (inr (failure_envelope
            (U "'" ++ type_name culprit ++ U "' object has no attribute 'get'")),
     tr ++ [LogInfo (U "Search query: " ++ build_query kws authors);
            HttpGet search_url
              (search_params (build_query kws authors) num_results)]).
Proof.
  intros Hcrit Hsearch Hjson Hwhere Hnodict.
  rewrite (search_pubmed_run _ _ _ _ _ _ Hcrit). cbn zeta.
  assert (Hids : identifier_search remote (build_query kws authors) num_results
                 = inl (AttributeError
                          (U "'" ++ type_name culprit
                             ++ U "' object has no attribute 'get'"))).
  { unfold identifier_search. rewrite Hsearch, Hjson.
    destruct Hwhere as [-> | (items & -> & Hesr)].
    - destruct culprit; try reflexivity. by destruct (Hnodict items).
    - simpl. rewrite Hesr. simpl.
      destruct culprit; try reflexivity. by destruct (Hnodict items0). }
  by rewrite Hids.
Qed.

Lemma search_json_not_a_dict_witness :
  (@nil (list N) ≠ [] ∨ [U "cancer"] ≠ [])
  ∧ search_pubmed
      (Scenarios.service (Scenarios.answer (JList [])) (inl Scenarios.unreachable))
      Samples.expat [U "cancer"] [] 10 []
    = (inr (failure_envelope (U "'list' object has no attribute 'get'")),
       [LogInfo (U "Search query: (cancer[Title/Abstract])");
        HttpGet search_url (search_params (U "(cancer[Title/Abstract])") 10)]).
Proof.
  split; [right; discriminate |].
  apply (search_json_not_a_dict
           (Scenarios.service (Scenarios.answer (JList [])) (inl Scenarios.unreachable))
           Samples.expat [U "cancer"] [] 10 []
           (mkResponse [] (inr (JList []))) (JList []) (JList []));
    [right; discriminate | reflexivity | reflexivity | left; reflexivity
    | discriminate].
Defined.

Lemma str_items_first_non_str (i : N) (strs : list pystr) (v : json)
    (rest : list json) :
  (∀ s, v ≠ JStr s) →
  str_items i (map JStr strs ++ v :: rest)
  = inl (TypeError (U "sequence item " ++ str_of_N (i + N.of_nat (length strs))
                      ++ U ": expected str instance, "
                      ++ type_name v ++ U " found")).
Proof.
  intros Hv. revert i. induction strs as [|s strs IH]; intros i.
  - rewrite N.add_0_r. destruct v; try reflexivity. by destruct (Hv s).
  - cbn [map app str_items length]. rewrite IH.
    by replace (N.succ i + N.of_nat (length strs))%N
      with (i + N.of_nat (S (length strs)))%N by lia.
Qed.

(** X6: when the identifier list holds an item that is not a string, the
    call returns the failure envelope naming the first such item and its
    type, and never requests the fetch endpoint. *)
Theorem non_string_identifier
    (remote : pystr → list (string * param) → result Response)
    (expat : list Byte.byte → parsed)
    (kws authors : list pystr) (num_results : Z) (tr : list event)
    (search_response : Response) (search_data esearchresult : json)
    (strs : list pystr) (v : json) (rest : list json) :
  authors ≠ [] ∨ kws ≠ [] →
  remote search_url (search_params (build_query kws authors) num_results)
  = inr search_response →
  json_body search_response = inr search_data →
  py_get search_data (U "esearchresult") (JDict []) = inr esearchresult →
  py_get esearchresult (U "idlist") (JList [])
  = inr (JList (map JStr strs ++ v :: rest)) →
  (∀ s, v ≠ JStr s) →
  search_pubmed remote expat kws authors num_results tr
  = (inr (failure_envelope
            (U "sequence item " ++ str_of_N (N.of_nat (length strs))
               ++ U ": expected str instance, " ++ type_name v ++ U " found")),
     tr ++ [LogInfo (U "Search query: " ++ build_query kws authors);
            HttpGet search_url
              (search_params (build_query kws authors) num_results)]).
Proof.
  intros Hcrit Hsearch Hjson Hesr Hidlist Hv.
  rewrite (search_pubmed_run _ _ _ _ _ _ Hcrit). cbn zeta.
  unfold identifier_search. rewrite Hsearch, Hjson, Hesr, Hidlist.
  unfold py_join. by rewrite (str_items_first_non_str 0 strs v rest Hv).
Qed.

Lemma non_string_identifier_witness :
  (@nil (list N) ≠ [] ∨ [U "cancer"] ≠ [])
  ∧ search_pubmed
      (Scenarios.service
         (Scenarios.answer
            (Samples.search_json (JList [JStr (U "111"); JInt 222; JStr (U "333")])))
         (inl Scenarios.unreachable))
      Samples.expat [U "cancer"] [] 10 []
    = (inr (failure_envelope
              (U "sequence item 1: expected str instance, int found")),
       [LogInfo (U "Search query: (cancer[Title/Abstract])");
        HttpGet search_url (search_params (U "(cancer[Title/Abstract])") 10)]).
Proof.
  split; [right; discriminate |].
  apply (non_string_identifier
           (Scenarios.service
              (Scenarios.answer
                 (Samples.search_json (JList [JStr (U "111"); JInt 222; JStr (U "333")])))
              (inl Scenarios.unreachable))
           Samples.expat [U "cancer"] [] 10 []
           (mkResponse [] (inr (Samples.search_json
                                  (JList [JStr (U "111"); JInt 222; JStr (U "333")]))))
           (Samples.search_json (JList [JStr (U "111"); JInt 222; JStr (U "333")]))
           (JDict [(U "count", JStr (U "3"));
                   (U "idlist", JList [JStr (U "111"); JInt 222; JStr (U "333")])])
           [U "111"] (JInt 222) [JStr (U "333")]);
    [right; discriminate | reflexivity | reflexivity | reflexivity | reflexivity
    | discriminate].
Defined.

(** X7: when the fetch request raises, [format_paper_details] lets the
    exception through after that one request, and [search_pubmed] returns
    the failure envelope with its text after both requests. *)
Theorem fetch_failure_wrapped
    (remote : pystr → list (string * param) → result Response)
    (expat : list Byte.byte → parsed)
    (kws authors : list pystr) (num_results : Z) (tr : list event)
    (search_response : Response) (search_data esearchresult : json)
    (identifiers : list pystr) (e : PyExc) :
  authors ≠ [] ∨ kws ≠ [] →
  remote search_url (search_params (build_query kws authors) num_results)
  = inr search_response →
  json_body search_response = inr search_data →
  py_get search_data (U "esearchresult") (JDict []) = inr esearchresult →
  py_get esearchresult (U "idlist") (JList [])
  = inr (JList (map JStr identifiers)) →
  remote fetch_url (fetch_params (join (U ",") identifiers)) = inl e →
  (∀ tr0, format_paper_details remote expat (JList (map JStr identifiers)) tr0
          = (inl e, tr0 ++ [HttpGet fetch_url
                              (fetch_params (join (U ",") identifiers))]))
  ∧ search_pubmed remote expat kws authors num_results tr
    = (inr (failure_envelope (str_exc e)),
       tr ++ [LogInfo (U "Search query: " ++ build_query kws authors);
              HttpGet search_url
                (search_params (build_query kws authors) num_results);
              HttpGet fetch_url (fetch_params (join (U ",") identifiers))]).
Proof.
  intros Hcrit Hsearch Hjson Hesr Hidlist Hfetch. split.
  - intros tr0. run_pipeline. by rewrite py_join_strs, Hfetch.
  - rewrite (search_pubmed_run _ _ _ _ _ _ Hcrit). cbn zeta.
    unfold identifier_search, fetch_records.
    rewrite Hsearch, Hjson, Hesr, Hidlist, py_join_strs, Hfetch.
    by rewrite <- app_assoc.
Qed.

Lemma fetch_failure_wrapped_witness :
  (@nil (list N) ≠ [] ∨ [U "cancer"] ≠ [])
  ∧ search_pubmed
      (Scenarios.service (Scenarios.answer (Samples.search_json Samples.idlist3))
                         (inl Scenarios.unreachable))
      Samples.expat [U "cancer"] [] 10 []
    = (inr (failure_envelope (U "Max retries exceeded with url")),
       [LogInfo (U "Search query: (cancer[Title/Abstract])");
        HttpGet search_url (search_params (U "(cancer[Title/Abstract])") 10);
        HttpGet fetch_url (fetch_params (U "111,222,333"))]).
Proof.
  split; [right; discriminate |].
  apply (fetch_failure_wrapped
           (Scenarios.service (Scenarios.answer (Samples.search_json Samples.idlist3))
                              (inl Scenarios.unreachable))
           Samples.expat [U "cancer"] [] 10 []
           (mkResponse [] (inr (Samples.search_json Samples.idlist3)))
           (Samples.search_json Samples.idlist3)
           (JDict [(U "count", JStr (U "3")); (U "idlist", Samples.idlist3)])
           [U "111"; U "222"; U "333"] Scenarios.unreachable);
    [right; discriminate | reflexivity ..].
Defined.

(** X9: author strings are not escaped: one author string that contains
    the text "[Author] OR " builds the same query as the two authors on
    either side of it. *)
Theorem build_query_unescaped (kws authors : list pystr) (a b : pystr) :
  build_query kws ((a ++ U "[Author] OR " ++ b) :: authors)
  = build_query kws (a :: b :: authors).
Proof.
  unfold build_query. cbn [truthy]. cbn zeta.
  replace (join (U " OR ")
             (map (λ author, author ++ U "[Author]")
                  ((a ++ U "[Author] OR " ++ b) :: authors)))
    with (join (U " OR ")
            (map (λ author, author ++ U "[Author]") (a :: b :: authors)));
    [reflexivity |].
  cbn [map join].
  change (U "[Author] OR ") with (U "[Author]" ++ U " OR ").
  destruct (map (λ author, author ++ U "[Author]") authors);
    by rewrite <- ?app_assoc.
Qed.

(** X10: with keywords only, the query is the parenthesized OR-join of the
    keywords tagged [[Title/Abstract]], with no author clause and no AND. *)
Theorem build_query_keywords_only (kws : list pystr) :
  kws ≠ [] →
  build_query kws []
  = U "(" ++ join (U " OR ") (map (λ keyword, keyword ++ U "[Title/Abstract]") kws)
      ++ U ")".
Proof. destruct kws; [congruence | reflexivity]. Qed.

(** X11: a record is read from what lies below the article element only:
    the tag, attributes, text and tail of the element itself play no part. *)
Theorem record_depends_on_children_only (article1 article2 : Element) :
  children article1 = children article2 →
  article_record article1 = article_record article2.
Proof.
  destruct article1, article2. simpl. intros ->. reflexivity.
Qed.

Lemma record_depends_on_children_only_witness :
  children Samples.article0 = children (mkElement (U "Other") {[ U "Status" := U "x" ]} (Some (U "text")) [] (Some (U "tail")))
  ∧ article_record Samples.article0
    = article_record (mkElement (U "Other") {[ U "Status" := U "x" ]} (Some (U "text")) [] (Some (U "tail"))).
Proof.
  split; [reflexivity |].
  apply (record_depends_on_children_only Samples.article0). reflexivity.
Defined.

Lemma filter_within_none {A} (P Q : A → Prop)
    `{∀ x, Decision (P x)} `{∀ x, Decision (Q x)} (l : list A) :
  Forall (λ x, Q x → ¬ P x) l → filter P (filter Q l) = [].
Proof.
  induction 1 as [|x l Hx _ IH]; [reflexivity |].
  rewrite filter_cons. destruct (decide (Q x)); [| exact IH].
  rewrite filter_cons. destruct (decide (P x)); [by destruct (Hx q) | exact IH].
Qed.

(** X12: the doi is the marker when no [ELocationID] below the article has
    [EIdType] equal to [doi], whatever other [ELocationID] elements exist;
    otherwise it is the text of the first [ELocationID] so typed, those
    of other types before it being skipped. *)
Theorem record_doi_needs_doi_type (article : Element) :
  (Forall (λ e, tag e = U "ELocationID" →
                attrib e !! U "EIdType" ≠ Some (U "doi")) (below article) →
   py_item (article_record article) "doi" = Some (PyStr NA))
  ∧ (∀ before e after,
       filter (λ e, tag e = U "ELocationID") (below article)
       = before ++ e :: after →
       Forall (λ e, attrib e !! U "EIdType" ≠ Some (U "doi")) before →
       attrib e !! U "EIdType" = Some (U "doi") →
       py_item (article_record article) "doi"
       = Some (PyStr (default [] (text e)))).
Proof.
  assert (Hdoi : py_item (article_record article) "doi"
          = Some (PyStr (findtext article
              [Self; Descendant (U "ELocationID");
               AttribEq (U "EIdType") (U "doi")] NA))) by reflexivity.
  assert (Hall : findall article
                   [Self; Descendant (U "ELocationID");
                    AttribEq (U "EIdType") (U "doi")]
                 = filter (λ e, attrib e !! U "EIdType" = Some (U "doi"))
                     (filter (λ e, tag e = U "ELocationID") (below article))).
  { unfold findall, below. simpl. by rewrite app_nil_r. }
  rewrite Hdoi. unfold findtext. rewrite Hall. split.
  - intros Hnone. by rewrite filter_within_none.
  - intros before e after -> Hbefore He.
    rewrite filter_app, (filter_none _ before Hbefore), filter_cons_True by done.
    reflexivity.
Qed.




(** X14: in every success envelope [total_results] is a non-negative
    integer and every entry of [results] is a record with exactly the
    eleven keys. *)
Theorem success_envelope_invariants
    (remote : pystr → list (string * param) → result Response)
    (expat : list Byte.byte → parsed)
    (kws authors : list pystr) (num_results : Z) (tr : list event) :
  ∃ envelope tr',
    search_pubmed remote expat kws authors num_results tr = (inr envelope, tr')
    ∧ (py_item envelope "success" = Some (PyBool true) →
       ∃ records total,
         envelope = success_envelope records total
         ∧ (0 ≤ total)%Z
         ∧ Forall (λ record,
                     py_keys record
                     = {[ "pubmed_id"; "link"; "title"; "authors"; "source";
                          "volume"; "issue"; "pages"; "doi"; "pubdate";
                          "abstract" ]}) records).
Proof.
  destruct (decide (authors = [] ∧ kws = [])) as [[-> ->] | Hcrit].
  - eexists _, _. split; [reflexivity | discriminate].
  - assert (Hcrit' : authors ≠ [] ∨ kws ≠ []).
    { destruct authors, kws; [by destruct Hcrit | by right | by left ..]. }
    rewrite (search_pubmed_run _ _ _ _ _ _ Hcrit'). cbn zeta.
    repeat case_match; eexists _, _; (split; [reflexivity |]);
      try discriminate.
    intros _. eexists _, _. split; [reflexivity |].
    split; [by eapply py_len_nonneg |].
    match goal with
    | H : fetch_records _ _ _ = inr _ |- _ =>
        unfold fetch_records, parse_article_details in H
    end.
    repeat case_match; simplify_eq.
    apply Forall_map, Forall_true. intros article. apply record_keys.
Qed.

Lemma build_query_keywords_only_witness :
  [U "cancer"; U "tumor"] ≠ []
  ∧ build_query [U "cancer"; U "tumor"] []
    = U "(cancer[Title/Abstract] OR tumor[Title/Abstract])".
Proof.
  split; [discriminate |].
  apply (build_query_keywords_only [U "cancer"; U "tumor"]). discriminate.
Defined.

Lemma record_doi_needs_doi_type_witness :
  py_item (article_record Scenarios.article_pii) "doi" = Some (PyStr NA)
  ∧ py_item (article_record Scenarios.article_doi_second) "doi"
    = Some (PyStr (U "10.1/x")).
Proof.
  split.
  - apply (record_doi_needs_doi_type Scenarios.article_pii).
    vm_compute. repeat constructor; intros; discriminate.
  - apply (proj2 (record_doi_needs_doi_type Scenarios.article_doi_second)
             [Samples.eloc "pii" "S1"] (Samples.eloc "doi" "10.1/x")
             [Samples.eloc "doi" "10.2/y"]).
    + reflexivity.
    + repeat constructor. discriminate.
    + reflexivity.
Defined.


